(** * ChatGPT-Line-Bot: command dispatch and per-user conversation state

    A shallow embedding of [src/main.py]: the two webhook handlers
    [handle_text_message] and [handle_audio_message], the conversation
    memory they mutate and the downstream services they call.

    Python [str] values are sequences of Unicode code points, and the
    handlers slice them by code point ([text[5:]]), so a string is a list
    of code points here.  The services (OpenAI model, website and video
    readers) are external: they are taken as functions whose every call is
    recorded in a trace, next to the memory operations. *)

From Stdlib Require Import String Ascii NArith.
From stdpp Require Import base list gmap.

(** ** Python strings *)

Module PyStr.

(** A [str]: its code points, in order. *)
Definition t := list N.

(** Decoding of the UTF-8 bytes of a literal of this file. *)
Fixpoint utf8_decode (bs : list N) : t :=
  match bs with
  | [] => []
  | b0 :: r0 =>
    if (b0 <? 128)%N then b0 :: utf8_decode r0
    else match r0 with
    | [] => []
    | b1 :: r1 =>
      if (b0 <? 224)%N
      then ((b0 - 192) * 64 + (b1 - 128))%N :: utf8_decode r1
      else match r1 with
      | [] => []
      | b2 :: r2 =>
        if (b0 <? 240)%N
        then ((b0 - 224) * 4096 + (b1 - 128) * 64 + (b2 - 128))%N
             :: utf8_decode r2
        else match r2 with
        | [] => []
        | b3 :: r3 =>
          ((b0 - 240) * 262144 + (b1 - 128) * 4096
           + (b2 - 128) * 64 + (b3 - 128))%N :: utf8_decode r3
        end
      end
    end
  end.

(** The [str] written by a literal. *)
Definition py (s : string) : t :=
  utf8_decode (map N_of_ascii (list_ascii_of_string s)).

(** [c.isspace()] for a code point: the characters [str.strip()]
    removes when called without argument. *)
Definition isspace (c : N) : bool :=
  ((9 <=? c) && (c <=? 13) || (28 <=? c) && (c <=? 32)
   || (c =? 133) || (c =? 160) || (c =? 5760)
   || (8192 <=? c) && (c <=? 8202)
   || (c =? 8232) || (c =? 8233) || (c =? 8239) || (c =? 8287)
   || (c =? 12288))%N.

Fixpoint lstrip (s : t) : t :=
  match s with
  | [] => []
  | c :: r => if isspace c then lstrip r else s
  end.

Definition rstrip (s : t) : t := rev (lstrip (rev s)).

(** [s.strip()] *)
Definition strip (s : t) : t := rstrip (lstrip s).

(** [s.startswith(prefix)] *)
Fixpoint startswith (s prefix : t) {struct prefix} : bool :=
  match prefix with
  | [] => true
  | p :: prefix' =>
    match s with
    | [] => false
    | c :: s' => (c =? p)%N && startswith s' prefix'
    end
  end.

(** Truth value of a [str]: empty is false. *)
Definition truthy (s : t) : bool :=
  match s with [] => false | _ => true end.

(** Truth value of a [str] or [None]. *)
Definition truthy_opt (o : option t) : bool :=
  match o with None => false | Some s => truthy s end.

End PyStr.

Abbreviation pystr := PyStr.t.
Abbreviation py := PyStr.py.
Arguments PyStr.py _%_string.

(** ** Conversation entries *)

Inductive Role := System | User | Assistant.

Record ConversationEntry := Entry { role : Role; content : pystr }.

#[global] Instance Role_eq_dec : EqDecision Role.
Proof. solve_decision. Defined.

#[global] Instance ConversationEntry_eq_dec : EqDecision ConversationEntry.
Proof. solve_decision. Defined.

(** ** Conversation memory *)

Module Memory.

(** Modelled from the spec: the class [Memory] of [src/memory.py], which
    [main.py] imports, is not part of the sources at hand.  A user's
    record holds the system message and the history; the spec's
    [UserMemory] also names the user and the turn bound. *)
Record UserMemory := {
  user_id : pystr;
  system_message : pystr;
  history : list ConversationEntry;
  max_turns : nat
}.

(** Modelled from the spec: the memory object built by
    [Memory(system_message=..., memory_message_count=...)]: the two
    process-wide defaults and one record per user seen so far. *)
Record t := {
  default_system_message : pystr;
  memory_message_count : nat;
  records : gmap pystr UserMemory
}.

(** Modelled from the spec: [Memory(system_message, memory_message_count)],
    no user seen yet. *)
Definition new (sys : pystr) (count : nat) : t :=
  {| default_system_message := sys;
     memory_message_count := count;
     records := ∅ |}.

(** Modelled from the spec: the record created on a user's first
    interaction (empty history and the configured defaults). *)
Definition fresh (m : t) (uid : pystr) : UserMemory :=
  {| user_id := uid;
     system_message := default_system_message m;
     history := [];
     max_turns := memory_message_count m |}.

(** Modelled from the spec: the record of a user, created with the
    defaults when the user was never seen. *)
Definition record (m : t) (uid : pystr) : UserMemory :=
  default (fresh m uid) (records m !! uid).

Definition store (m : t) (uid : pystr) (r : UserMemory) : t :=
  {| default_system_message := default_system_message m;
     memory_message_count := memory_message_count m;
     records := <[uid := r]> (records m) |}.

(** Modelled from the spec: the sliding window of [append], which drops
    the oldest user/assistant pair once the history holds more than
    [2 * max_turns] entries. *)
Definition window (turns : nat) (h : list ConversationEntry)
  : list ConversationEntry :=
  if 2 * turns <? length h then drop 2 h else h.

(** Modelled from the spec: [append(user_id, role, content)] adds an entry
    and enforces the sliding window. *)
Definition append (m : t) (uid : pystr) (r : Role) (c : pystr) : t :=
  let u := record m uid in
  store m uid
    {| user_id := user_id u;
       system_message := system_message u;
       history := window (max_turns u) (history u ++ [Entry r c]);
       max_turns := max_turns u |}.

(** The sequence handed to a downstream call. *)
Definition materialize (u : UserMemory) : list ConversationEntry :=
  Entry System (system_message u) :: history u.

(** Modelled from the spec: [get(user_id)] returns the system message
    followed by the history, creating the record if none exists. *)
Definition get (m : t) (uid : pystr) : list ConversationEntry * t :=
  let u := record m uid in
  (materialize u, store m uid u).

(** Modelled from the spec: [change_system_message(user_id, text)]
    upserts the system message without touching the history. *)
Definition change_system_message (m : t) (uid : pystr) (text : pystr) : t :=
  let u := record m uid in
  store m uid
    {| user_id := user_id u;
       system_message := text;
       history := history u;
       max_turns := max_turns u |}.

(** Modelled from the spec: [remove(user_id)] clears the history, not
    the whole record. *)
Definition remove (m : t) (uid : pystr) : t :=
  let u := record m uid in
  store m uid
    {| user_id := user_id u;
       system_message := system_message u;
       history := [];
       max_turns := max_turns u |}.

(** The stored history of a user. *)
Definition history_of (m : t) (uid : pystr) : list ConversationEntry :=
  history (record m uid).

(** A sequence of [append] calls, oldest first. *)
Definition appends (m : t) (calls : list (pystr * Role * pystr)) : t :=
  foldl (fun m '(uid, r, c) => append m uid r c) m calls.

(** The entries a sequence of [append] calls hands in for one user. *)
Definition entries_for (uid : pystr) (calls : list (pystr * Role * pystr))
  : list ConversationEntry :=
  omap (fun '(uid', r, c) =>
          if decide (uid' = uid) then Some (Entry r c) else None) calls.

(** The memory of [main.py], built with [memory_message_count=2]: the
    bound of the memory and of every record is 2. *)
Definition configured (m : t) : Prop :=
  memory_message_count m = 2
  /\ forall uid u, records m !! uid = Some u -> max_turns u = 2.

End Memory.

(** ** Outgoing messages *)

Inductive OutgoingMessage :=
| TextSendMessage (text : pystr)
| ImageSendMessage (original_content_url preview_image_url : pystr).

(** ** Downstream services *)

(** What a call into a service does: it returns, or it raises an exception
    [e], of which the handlers only look at [str(e)]. *)
Inductive Outcome (A : Type) :=
| Returns (a : A)
| Raises (e : pystr).
Arguments Returns {A} a.
Arguments Raises {A} e.

(** The triple [(is_successful, response, error_message)] the model and the
    readers return. *)
Record Result (A : Type) := mkResult {
  is_successful : bool;
  response : A;
  error_message : pystr
}.
Arguments mkResult {A} _ _ _.
Arguments is_successful {A} _.
Arguments response {A} _.
Arguments error_message {A} _.

(** The part of an image response the handler reads:
    [response['data'][0]['url']]. *)
Record ImageDatum := { url : pystr }.
Record ImageResponse := { data : list ImageDatum }.

(** The part of a transcription the handler reads: [response['text']]. *)
Record Transcription := { transcript : pystr }.

(** The objects [model], [website], [youtube], the two readers built on
    [model], and [get_role_and_content]; [Response] is what a chat
    completion or a summary returns.  An engine is the value of
    [os.getenv], a [str] or [None]. *)
Record Services (Response : Type) := {
  image_generations : pystr -> Outcome (Result ImageResponse);
  chat_completions :
    list ConversationEntry -> option pystr -> Outcome (Result Response);
  audio_transcriptions : pystr -> pystr -> Outcome (Result Transcription);
  get_url_from_text : pystr -> Outcome (option pystr);
  get_content_from_url : option pystr -> Outcome (list pystr);
  retrieve_video_id : pystr -> Outcome (option pystr);
  get_transcript_chunks : option pystr -> Outcome (Result (list pystr));
  youtube_summarize :
    option pystr -> list pystr -> Outcome (Result Response);
  website_summarize :
    option pystr -> list pystr -> Outcome (Result Response);
  get_role_and_content : Response -> Role * pystr
}.
Arguments image_generations {Response} _ _.
Arguments chat_completions {Response} _ _ _.
Arguments audio_transcriptions {Response} _ _ _.
Arguments get_url_from_text {Response} _ _.
Arguments get_content_from_url {Response} _ _.
Arguments retrieve_video_id {Response} _ _.
Arguments get_transcript_chunks {Response} _ _.
Arguments youtube_summarize {Response} _ _ _.
Arguments website_summarize {Response} _ _ _.
Arguments get_role_and_content {Response} _ _.

(** ** Effects *)

(** Everything a handler does to the memory or asks of a service, in the
    order it happens. *)
Inductive Event :=
| MemAppend (uid : pystr) (r : Role) (c : pystr)
| MemGet (uid : pystr)
| MemChangeSystemMessage (uid text : pystr)
| MemRemove (uid : pystr)
| ImageGenerations (prompt : pystr)
| ChatCompletions (messages : list ConversationEntry) (engine : option pystr)
| AudioTranscriptions (path engine : pystr)
| GetUrlFromText (text : pystr)
| GetContentFromUrl (u : option pystr)
| RetrieveVideoId (text : pystr)
| GetTranscriptChunks (video_id : option pystr)
| YoutubeSummarize (engine : option pystr) (chunks : list pystr)
| WebsiteSummarize (engine : option pystr) (chunks : list pystr).

(** The process state the handlers share: the global [memory], and the
    trace of events so far. *)
Record World := mkWorld { memory : Memory.t; trace : list Event }.

(** Value or raised exception. *)
Inductive Res (A : Type) :=
| Val (a : A)
| Exc (e : pystr).
Arguments Val {A} a.
Arguments Exc {A} e.

(** A computation of the handlers: the state survives an exception. *)
Definition M (A : Type) : Type := World -> Res A * World.

Definition ret {A} (a : A) : M A := fun w => (Val a, w).

Definition bind {A B} (c : M A) (k : A -> M B) : M B :=
  fun w => match c w with
           | (Val a, w') => k a w'
           | (Exc e, w') => (Exc e, w')
           end.

(** [raise Exception(message)] *)
Definition raise {A} (message : pystr) : M A := fun w => (Exc message, w).

Definition log (ev : Event) (w : World) : World :=
  mkWorld (memory w) (trace w ++ [ev]).

(** A call into a service: recorded, then its outcome. *)
Definition call {A} (ev : Event) (o : Outcome A) : M A :=
  fun w => match o with
           | Returns a => (Val a, log ev w)
           | Raises e => (Exc e, log ev w)
           end.

#[global] Instance M_ret : MRet M := @ret.
#[global] Instance M_bind : MBind M := fun A B k c => bind c k.

(** The four operations on the global [memory]. *)
Definition mem_append (uid : pystr) (r : Role) (c : pystr) : M unit :=
  fun w => (Val tt, mkWorld (Memory.append (memory w) uid r c)
                            (trace w ++ [MemAppend uid r c])).

Definition mem_get (uid : pystr) : M (list ConversationEntry) :=
  fun w => let got := Memory.get (memory w) uid in
           (Val (fst got), mkWorld (snd got) (trace w ++ [MemGet uid])).

Definition mem_change_system_message (uid text : pystr) : M unit :=
  fun w => (Val tt, mkWorld (Memory.change_system_message (memory w) uid text)
                            (trace w ++ [MemChangeSystemMessage uid text])).

Definition mem_remove (uid : pystr) : M unit :=
  fun w => (Val tt, mkWorld (Memory.remove (memory w) uid)
                            (trace w ++ [MemRemove uid])).


(** The events that look for a URL or a video in a text, or fetch what
    one points to. *)
Definition is_detection (ev : Event) : bool :=
  match ev with
  | GetUrlFromText _ | GetContentFromUrl _
  | RetrieveVideoId _ | GetTranscriptChunks _ => true
  | _ => false
  end.

(** ** The handlers of [main.py] *)

(** The line feed of the help text. *)
Definition nl : pystr := [10%N].

(** The text sent for the help command. *)
Definition help_text : pystr :=
  py "指令：" ++ nl
    ++ py "/系統訊息 + Prompt" ++ nl
    ++ py "👉 Prompt 可以命令機器人扮演某個角色，例如：請你扮演擅長做總結的人" ++ nl
    ++ nl
    ++ py "/清除" ++ nl
    ++ py "👉 當前每一次都會紀錄最後兩筆歷史紀錄，這個指令能夠清除歷史訊息" ++ nl
    ++ nl
    ++ py "/圖像 + Prompt" ++ nl
    ++ py "👉 會調用 DALL∙E 2 Model，以文字生成圖像" ++ nl
    ++ nl
    ++ py "/GPT + Prompt" ++ nl
    ++ py "👉 調用 ChatGPT 以文字回覆" ++ nl
    ++ nl
    ++ py "語音輸入" ++ nl
    ++ py "👉 會調用 Whisper 模型，先將語音轉換成文字，再調用 ChatGPT 以文字回覆".

(** [commands], the list of supported command prefixes. *)
Definition commands : list pystr :=
  [py "/指令說明"; py "/系統訊息"; py "/清除"; py "/圖像"; py "/GPT"].

(** How control leaves the [try] block of [handle_text_message]: by the
    [return] of the last [else], or at its end with [msg] bound or not. *)
Inductive Flow :=
| EarlyReturn
| EndOfTry (msg : option OutgoingMessage).

(** What a handler invocation ends in: a call of
    [line_bot_api.reply_message], no reply at all, or an exception that no
    [except] clause caught. *)
Inductive Completion :=
| Replied (msg : OutgoingMessage)
| Silent
| Uncaught.

(** The [except Exception as e] clause of [handle_text_message], after
    [memory.remove]. *)
Definition text_error_message (e : pystr) : OutgoingMessage :=
  if PyStr.startswith e (py "Incorrect API key provided")
  then TextSendMessage (py "OpenAI API Key 有誤，請檢查配置。")
  else if PyStr.startswith e
            (py "That model is currently overloaded with other requests.")
  then TextSendMessage (py "已超過負荷，請稍後再試")
  else TextSendMessage e.

(** The [except Exception as e] clause of [handle_audio_message], after
    [memory.remove]. *)
Definition audio_error_message (e : pystr) : OutgoingMessage :=
  if PyStr.startswith e (py "Incorrect API key provided")
  then TextSendMessage (py "OpenAI API Key 有誤，請檢查配置。")
  else TextSendMessage e.

Section Handlers.

Context {Response : Type}.
(** [model], [website], [youtube] and the helpers. *)
Variable svc : Services Response.
(** [os.getenv('OPENAI_MODEL_ENGINE')] *)
Variable OPENAI_MODEL_ENGINE : option pystr.

(** [if not is_successful: raise Exception(error_message)] *)
Definition check {A} (r : Result A) : M A :=
  if negb (is_successful r) then raise (error_message r)
  else mret (response r).

(** [response['data'][0]['url']] *)
Definition first_url (r : ImageResponse) : M pystr :=
  match data r with
  | [] => raise (py "list index out of range")
  | d :: _ => mret (url d)
  end.

(** The branch [elif text.startswith('/圖像')]. *)
Definition image_command (user_id text : pystr) : M Flow :=
  let prompt := PyStr.strip (drop 3 text) in
  mem_append user_id User prompt;;
  r ← call (ImageGenerations prompt) (image_generations svc prompt);
  response ← check r;
  url ← first_url response;
  let msg := ImageSendMessage url url in
  mem_append user_id Assistant url;;
  mret (EndOfTry (Some msg)).

(** The video branch of the chat command. *)
Definition youtube_summary (prompt : pystr) : M (Role * pystr) :=
  video_id ← call (RetrieveVideoId prompt) (retrieve_video_id svc prompt);
  r ← call (GetTranscriptChunks video_id)
           (get_transcript_chunks svc video_id);
  chunks ← check r;
  r ← call (YoutubeSummarize OPENAI_MODEL_ENGINE chunks)
           (youtube_summarize svc OPENAI_MODEL_ENGINE chunks);
  response ← check r;
  mret (get_role_and_content svc response).

(** The generic-URL branch of the chat command. *)
Definition website_summary (url : option pystr) : M (Role * pystr) :=
  chunks ← call (GetContentFromUrl url) (get_content_from_url svc url);
  if length chunks =? 0 then raise (py "無法撈取此網站文字")
  else
    r ← call (WebsiteSummarize OPENAI_MODEL_ENGINE chunks)
             (website_summarize svc OPENAI_MODEL_ENGINE chunks);
    response ← check r;
    mret (get_role_and_content svc response).

(** The plain chat completion over the user's memory. *)
Definition chat_completion (user_id : pystr) : M (Role * pystr) :=
  messages ← mem_get user_id;
  r ← call (ChatCompletions messages OPENAI_MODEL_ENGINE)
           (chat_completions svc messages OPENAI_MODEL_ENGINE);
  response ← check r;
  mret (get_role_and_content svc response).

(** The branch [elif text.startswith('/GPT')]. *)
Definition gpt_command (user_id text : pystr) : M Flow :=
  let prompt := PyStr.strip (drop 4 text) in
  if negb (PyStr.truthy prompt)
  then mret (EndOfTry (Some (TextSendMessage (py "請在 /GPT 指令後提供內容。"))))
  else
    mem_append user_id User prompt;;
    url ← call (GetUrlFromText prompt) (get_url_from_text svc prompt);
    '(role, response) ←
      (if PyStr.truthy_opt url then
         video_id ← call (RetrieveVideoId prompt)
                         (retrieve_video_id svc prompt);
         if PyStr.truthy_opt video_id then youtube_summary prompt
         else website_summary url
       else chat_completion user_id);
    let msg := TextSendMessage response in
    mem_append user_id role response;;
    mret (EndOfTry (Some msg)).

(** The [try] block of [handle_text_message], on the stripped text. *)
Definition handle_text_try (user_id text : pystr) : M Flow :=
  if existsb (PyStr.startswith text) commands then
    if PyStr.startswith text (py "/指令說明") then
      mret (EndOfTry (Some (TextSendMessage help_text)))
    else if PyStr.startswith text (py "/系統訊息") then
      mem_change_system_message user_id (PyStr.strip (drop 5 text));;
      mret (EndOfTry (Some (TextSendMessage (py "輸入成功"))))
    else if PyStr.startswith text (py "/清除") then
      mem_remove user_id;;
      mret (EndOfTry (Some (TextSendMessage (py "歷史訊息清除成功"))))
    else if PyStr.startswith text (py "/圖像") then
      image_command user_id text
    else if PyStr.startswith text (py "/GPT") then
      gpt_command user_id text
    else mret (EndOfTry None)
  else mret EarlyReturn.

(** [handle_text_message(event)], with [event.source.user_id] and
    [event.message.text]. *)
Definition handle_text_message (user_id message_text : pystr) (w : World)
  : Completion * World :=
  let text := PyStr.strip message_text in
  match handle_text_try user_id text w with
  | (Val EarlyReturn, w') => (Silent, w')
  | (Val (EndOfTry (Some msg)), w') => (Replied msg, w')
  | (Val (EndOfTry None), w') => (Uncaught, w')
  | (Exc e, w') =>
    let (_, w'') := mem_remove user_id w' in
    (Replied (text_error_message e), w'')
  end.

(** The [try] block of [handle_audio_message]. *)
Definition handle_audio_try (user_id input_audio_path : pystr)
  : M OutgoingMessage :=
  r ← call (AudioTranscriptions input_audio_path (py "whisper-1"))
           (audio_transcriptions svc input_audio_path (py "whisper-1"));
  response ← check r;
  mem_append user_id User (transcript response);;
  messages ← mem_get user_id;
  r ← call (ChatCompletions messages (Some (py "gpt-3.5-turbo")))
           (chat_completions svc messages (Some (py "gpt-3.5-turbo")));
  response ← check r;
  let '(role, response) := get_role_and_content svc response in
  mem_append user_id role response;;
  mret (TextSendMessage response).

(** [handle_audio_message(event)], with [event.source.user_id] and the
    path the audio content was written to; writing that file before the
    [try] block and removing it after it touch neither the memory nor a
    service, and are left out. *)
Definition handle_audio_message (user_id input_audio_path : pystr)
    (w : World) : Completion * World :=
  match handle_audio_try user_id input_audio_path w with
  | (Val msg, w') => (Replied msg, w')
  | (Exc e, w') =>
    let (_, w'') := mem_remove user_id w' in
    (Replied (audio_error_message e), w'')
  end.

(** The command table of the specification, in priority order: each
    prefix with what handles a text that starts with it. *)
Definition command_table : list (pystr * (pystr -> pystr -> M Flow)) :=
  [ (py "/指令說明",
     fun _ _ => mret (EndOfTry (Some (TextSendMessage help_text))));
    (py "/系統訊息",
     fun user_id text =>
       mem_change_system_message user_id (PyStr.strip (drop 5 text));;
       mret (EndOfTry (Some (TextSendMessage (py "輸入成功")))));
    (py "/清除",
     fun user_id _ =>
       mem_remove user_id;;
       mret (EndOfTry (Some (TextSendMessage (py "歷史訊息清除成功")))));
    (py "/圖像", image_command);
    (py "/GPT", gpt_command) ].

(** Routing as the specification words it: the first entry of the table
    whose prefix the trimmed input starts with handles it, and an input
    that matches none is a no-op. *)
Definition route (user_id text : pystr) : M Flow :=
  match find (fun entry => PyStr.startswith text (fst entry)) command_table with
  | Some entry => snd entry user_id text
  | None => mret EarlyReturn
  end.

(** The world after [n] deliveries of the same text event. *)
Definition redeliver (user_id message_text : pystr) (n : nat) (w : World)
  : World :=
  Nat.iter n (fun w => snd (handle_text_message user_id message_text w)) w.

End Handlers.

(** What holds of a user's record after any sequence of appends to a new
    memory: defaults kept, and the history is what was handed in minus a
    whole number of leading pairs. *)
Definition window_inv (sys : pystr) (count : nat)
    (calls : list (pystr * Role * pystr)) (uid : pystr) : Prop :=
  let m := Memory.appends (Memory.new sys count) calls in
  let es := Memory.entries_for uid calls in
  Memory.max_turns (Memory.record m uid) = count
  /\ Memory.system_message (Memory.record m uid) = sys
  /\ length (Memory.history_of m uid) <= 2 * count
  /\ exists j, 2 * j <= length es
       /\ Memory.history_of m uid = drop (2 * j) es
       /\ (length es <= 2 * count -> j = 0).

(** ** The process and its test doubles *)

(** The world when the process starts: [memory] as [main.py] builds it,
    with [SYSTEM_MESSAGE] from the environment, and nothing done yet. *)
Definition initial_world (SYSTEM_MESSAGE : pystr) : World :=
  mkWorld (Memory.new SYSTEM_MESSAGE 2) [].



(** A command recovered locally: a text reply, and the world as it was
    (no service called, memory untouched). *)
Definition recovers_locally {Response : Type} (svc : Services Response)
    (engine : option pystr) (user_id message_text : pystr) (w : World)
  : Prop :=
  exists guidance,
    handle_text_message svc engine user_id message_text w
    = (Replied (TextSendMessage guidance), w).

(** Services that answer every call the same way: the image model with
    [image], chat completion and both readers with [chat], transcription
    with [audio], URL detection with [found] and the website reader's
    content with [page]; no text holds a video. *)
Definition fake (image : Result ImageResponse) (chat : Result (Role * pystr))
    (audio : Result Transcription) (found : option pystr)
    (page : list pystr) : Services (Role * pystr) :=
  {| image_generations := fun _ => Returns image;
     chat_completions := fun _ _ => Returns chat;
     audio_transcriptions := fun _ _ => Returns audio;
     get_url_from_text := fun _ => Returns found;
     get_content_from_url := fun _ => Returns page;
     retrieve_video_id := fun _ => Returns None;
     get_transcript_chunks :=
       fun _ => Returns (mkResult false [] (py "no transcript"));
     youtube_summarize := fun _ _ => Returns chat;
     website_summarize := fun _ _ => Returns chat;
     get_role_and_content := fun r => r |}.

(** An image generation that succeeded with one URL. *)
Definition image_ok : Result ImageResponse :=
  mkResult true {| data := [ {| url := py "https://img.example/cat.png" |} ] |}
    [].

(** A call that failed with the given error message. *)
Definition failed {A} (nothing : A) (message : pystr) : Result A :=
  mkResult false nothing message.

(** A chat completion that succeeded with an assistant message. *)
Definition chat_ok : Result (Role * pystr) :=
  mkResult true (Assistant, py "Hello!") [].

(** A transcription that succeeded. *)
Definition audio_ok : Result Transcription :=
  mkResult true {| transcript := py "/清除 https://example.com" |} [].

(** The model identifier a service call was given, if it takes one. *)
Definition engine_of (ev : Event) : option (option pystr) :=
  match ev with
  | ChatCompletions _ engine
  | YoutubeSummarize engine _
  | WebsiteSummarize engine _ => Some engine
  | _ => None
  end.

(** ** Reading a trace *)

(** What a run added to the trace. *)
Definition new_events (w w' : World) : list Event :=
  drop (length (trace w)) (trace w').

(** The events that are calls into a service, not memory operations. *)
Definition is_service (ev : Event) : bool :=
  match ev with
  | MemAppend _ _ _ | MemGet _ | MemChangeSystemMessage _ _ | MemRemove _ =>
    false
  | _ => true
  end.

(** The user a memory operation is about. *)
Definition event_user (ev : Event) : option pystr :=
  match ev with
  | MemAppend uid _ _ | MemGet uid | MemChangeSystemMessage uid _
  | MemRemove uid => Some uid
  | _ => None
  end.

(** The prompt a service is given as text. *)
Definition prompt_of (ev : Event) : option pystr :=
  match ev with
  | ImageGenerations prompt | GetUrlFromText prompt | RetrieveVideoId prompt =>
    Some prompt
  | _ => None
  end.

(** The prompt of the chat command, where a service is given it. *)
Definition chat_prompt_of (ev : Event) : option pystr :=
  match ev with
  | GetUrlFromText prompt | RetrieveVideoId prompt => Some prompt
  | _ => None
  end.

(** The events of the plain chat completion: reading the memory and
    calling the model. *)
Definition is_chat_completion (ev : Event) : bool :=
  match ev with
  | MemGet _ | ChatCompletions _ _ => true
  | _ => false
  end.

(** The events of the two summary branches. *)
Definition is_summary (ev : Event) : bool :=
  match ev with
  | GetContentFromUrl _ | RetrieveVideoId _ | GetTranscriptChunks _
  | YoutubeSummarize _ _ | WebsiteSummarize _ _ => true
  | _ => false
  end.

(** The speech model an event names, if it is a transcription. *)
Definition transcription_model (ev : Event) : option pystr :=
  match ev with
  | AudioTranscriptions _ engine => Some engine
  | _ => None
  end.

(** Services for the summary branches: URL detection answers [found],
    video detection [video], the transcript reader [captions], the website
    reader [page], and both summaries [summary]; the image model, the
    chat completion and the transcription fail. *)
Definition fake_reader (found video : option pystr)
    (captions : Result (list pystr)) (page : list pystr)
    (summary : Result (Role * pystr)) : Services (Role * pystr) :=
  {| image_generations :=
       fun _ => Returns (failed {| data := [] |} (py "no image"));
     chat_completions :=
       fun _ _ => Returns (failed (Assistant, []) (py "no chat"));
     audio_transcriptions :=
       fun _ _ => Returns (failed {| transcript := [] |} (py "no audio"));
     get_url_from_text := fun _ => Returns found;
     get_content_from_url := fun _ => Returns page;
     retrieve_video_id := fun _ => Returns video;
     get_transcript_chunks := fun _ => Returns captions;
     youtube_summarize := fun _ _ => Returns summary;
     website_summarize := fun _ _ => Returns summary;
     get_role_and_content := fun r => r |}.

(** A summary that succeeded. *)
Definition summary_ok : Result (Role * pystr) :=
  mkResult true (Assistant, py "In short: cats.") [].

(** An image generation that reports success without any datum. *)
Definition image_without_data : Result ImageResponse :=
  mkResult true {| data := [] |} [].

(** A [str] without white space in front. *)
Definition ltrimmed (s : pystr) : Prop :=
  match s with
  | [] => True
  | c :: _ => PyStr.isspace c = false
  end.

(** ** Properties *)

Section MemoryFacts.

Implicit Types (m : Memory.t) (uid : pystr) (u : Memory.UserMemory).

Lemma record_store_eq m uid u : Memory.record (Memory.store m uid u) uid = u.
Proof. unfold Memory.record, Memory.store; simpl. by rewrite lookup_insert_eq. Qed.

Lemma record_store_ne m uid uid' u :
  uid <> uid' ->
  Memory.record (Memory.store m uid u) uid' = Memory.record m uid'.
Proof.
  intros Hne. unfold Memory.record, Memory.store; simpl.
  by rewrite lookup_insert_ne.
Qed.

Lemma history_of_append m uid r c :
  Memory.history_of (Memory.append m uid r c) uid
  = Memory.window (Memory.max_turns (Memory.record m uid))
      (Memory.history_of m uid ++ [Entry r c]).
Proof. unfold Memory.history_of, Memory.append. by rewrite record_store_eq. Qed.

Lemma record_append_ne m uid uid' r c :
  uid <> uid' ->
  Memory.record (Memory.append m uid r c) uid' = Memory.record m uid'.
Proof. intros. unfold Memory.append. by rewrite record_store_ne. Qed.

Lemma system_message_append m uid uid' r c :
  Memory.system_message (Memory.record (Memory.append m uid r c) uid')
  = Memory.system_message (Memory.record m uid').
Proof.
  destruct (decide (uid = uid')) as [->|Hne].
  - unfold Memory.append. by rewrite record_store_eq.
  - by rewrite record_append_ne.
Qed.

Lemma max_turns_append m uid uid' r c :
  Memory.max_turns (Memory.record (Memory.append m uid r c) uid')
  = Memory.max_turns (Memory.record m uid').
Proof.
  destruct (decide (uid = uid')) as [->|Hne].
  - unfold Memory.append. by rewrite record_store_eq.
  - by rewrite record_append_ne.
Qed.

Lemma history_of_remove m uid : Memory.history_of (Memory.remove m uid) uid = [].
Proof. unfold Memory.history_of, Memory.remove. by rewrite record_store_eq. Qed.

Lemma history_of_change_system_message m uid uid' text :
  Memory.history_of (Memory.change_system_message m uid text) uid'
  = Memory.history_of m uid'.
Proof.
  unfold Memory.history_of, Memory.change_system_message.
  destruct (decide (uid = uid')) as [->|Hne].
  - by rewrite record_store_eq.
  - by rewrite record_store_ne.
Qed.

Lemma system_message_change m uid text :
  Memory.system_message
    (Memory.record (Memory.change_system_message m uid text) uid) = text.
Proof. unfold Memory.change_system_message. by rewrite record_store_eq. Qed.

Lemma get_append m uid r c :
  Memory.get (Memory.append m uid r c) uid
  = (Entry System (Memory.system_message (Memory.record m uid))
       :: Memory.history_of (Memory.append m uid r c) uid,
     Memory.append m uid r c).
Proof.
  unfold Memory.get, Memory.materialize, Memory.history_of.
  f_equal.
  - by rewrite system_message_append.
  - unfold Memory.append at 1 2. unfold Memory.store at 1; simpl.
    rewrite record_store_eq. unfold Memory.store; simpl.
    by rewrite insert_insert_eq.
Qed.

Lemma window_length turns (h : list ConversationEntry) :
  length h <= 2 * turns + 1 -> length (Memory.window turns h) <= 2 * turns.
Proof.
  intros Hle. unfold Memory.window.
  destruct (Nat.ltb_spec (2 * turns) (length h)).
  - rewrite length_drop. lia.
  - lia.
Qed.

Lemma window_cases turns (h : list ConversationEntry) :
  (length h <= 2 * turns /\ Memory.window turns h = h)
  \/ (2 * turns < length h /\ Memory.window turns h = drop 2 h).
Proof.
  unfold Memory.window.
  destruct (Nat.ltb_spec (2 * turns) (length h)); [right|left]; by split.
Qed.

Lemma window_last turns (h : list ConversationEntry) e :
  0 < turns -> last (Memory.window turns (h ++ [e])) = Some e.
Proof.
  intros Hpos. unfold Memory.window.
  destruct (Nat.ltb_spec (2 * turns) (length (h ++ [e]))) as [Hlt|_].
  - rewrite length_app in Hlt; simpl in Hlt.
    rewrite drop_app_le by lia. apply last_snoc.
  - apply last_snoc.
Qed.

End MemoryFacts.

(** *** Strings *)

Example py_code_points : py "/系統訊息" = [47; 31995; 32113; 35338; 24687]%N.
Proof. reflexivity. Qed.

Example py_four_bytes : py "👉∙" = [128073; 8729]%N.
Proof. reflexivity. Qed.

Example strip_both_ends :
  PyStr.strip (py "  /GPT  你好 　") = py "/GPT  你好".
Proof. reflexivity. Qed.

Example slice_by_code_point :
  PyStr.strip (drop 5 (py "/系統訊息 你是一個翻譯員")) = py "你是一個翻譯員".
Proof. reflexivity. Qed.

Example help_text_length : length help_text = 222.
Proof. reflexivity. Qed.

(** *** The sliding window *)

Section SlidingWindow.

Variables (sys : pystr) (count : nat).
Hypothesis count_pos : 0 < count.

Lemma window_inv_nil uid : window_inv sys count [] uid.
Proof.
  unfold window_inv, Memory.history_of, Memory.record; simpl.
  rewrite lookup_empty; simpl.
  split; [done|]. split; [done|]. split; [lia|].
  exists 0. split; [lia|]. by split.
Qed.

Lemma window_inv_snoc calls uid' r c uid :
  window_inv sys count calls uid ->
  window_inv sys count (calls ++ [(uid', r, c)]) uid.
Proof using count_pos.
  unfold window_inv, Memory.appends, Memory.entries_for.
  rewrite foldl_snoc, omap_app.
  set (m := foldl _ _ calls). set (es := omap _ calls).
  intros (Hturns & Hsys & Hlen & j & Hj & Hh & Hj0).
  rewrite max_turns_append, system_message_append.
  split; [done|]. split; [done|].
  destruct (decide (uid' = uid)) as [->|Hne].
  - assert (Hes : omap (fun '(uid', r, c) =>
                    if decide (uid' = uid) then Some (Entry r c) else None)
                    [(uid, r, c)] = [Entry r c]).
    { cbn. by rewrite decide_True. }
    rewrite Hes, history_of_append, Hturns, length_app.
    change (length [Entry r c]) with 1.
    assert (Hsnoc : Memory.history_of m uid ++ [Entry r c]
                    = drop (2 * j) (es ++ [Entry r c])).
    { rewrite Hh. by rewrite drop_app_le by lia. }
    assert (Hlen' : length (Memory.history_of m uid ++ [Entry r c])
                    = length es - 2 * j + 1).
    { rewrite length_app, Hh, length_drop. done. }
    assert (Hlen'' : length (Memory.history_of m uid ++ [Entry r c])
                     = length (Memory.history_of m uid) + 1).
    { by rewrite length_app. }
    destruct (window_cases count (Memory.history_of m uid ++ [Entry r c]))
      as [[Hfit ->]|[Hover ->]].
    + split; [lia|]. exists j.
      split; [lia|]. split; [done|].
      intros Hsmall. apply Hj0. lia.
    + split; [rewrite length_drop; lia|]. exists (S j).
      split; [lia|]. split.
      * rewrite Hsnoc, drop_drop. f_equal. lia.
      * intros Hsmall. lia.
  - assert (Hes : omap (fun '(uid', r, c) =>
                    if decide (uid' = uid) then Some (Entry r c) else None)
                    [(uid', r, c)] = []).
    { cbn. by rewrite decide_False. }
    rewrite Hes, app_nil_r.
    unfold Memory.history_of. rewrite record_append_ne by done.
    fold (Memory.history_of m uid).
    split; [done|]. by exists j.
Qed.

Lemma window_inv_holds calls uid : window_inv sys count calls uid.
Proof using count_pos.
  induction calls as [|[[uid' r] c] calls IH] using rev_ind.
  - apply window_inv_nil.
  - by apply window_inv_snoc.
Qed.

(** C2: after any sequence of appends to a memory built with a positive
    turn bound, a user's stored history holds at most twice that bound;
    it is the sequence of entries handed in for that user minus an even
    number of leading entries (whole pairs, oldest first), nothing being
    dropped while the entries fit; and the materialized sequence starts
    with the system message, which no append evicts or changes. *)
Theorem history_window_bounded (calls : list (pystr * Role * pystr))
    (uid : pystr) :
  let m := Memory.appends (Memory.new sys count) calls in
  let es := Memory.entries_for uid calls in
  length (Memory.history_of m uid) <= 2 * count
  /\ (exists j, 2 * j <= length es
        /\ Memory.history_of m uid = drop (2 * j) es)
  /\ (length es <= 2 * count -> Memory.history_of m uid = es)
  /\ fst (Memory.get m uid) = Entry System sys :: Memory.history_of m uid.
Proof using count_pos.
  intros m es.
  destruct (window_inv_holds calls uid) as (_ & Hsys & Hlen & j & Hj & Hh & Hj0).
  fold m es in Hsys, Hlen, Hj, Hh, Hj0.
  split; [done|]. split; [by exists j|]. split.
  - intros Hsmall. rewrite Hh, (Hj0 Hsmall). done.
  - unfold Memory.get, Memory.materialize; simpl. by rewrite Hsys.
Qed.

End SlidingWindow.

(** *** Running the handlers *)

Arguments PyStr.py : simpl never.
Arguments help_text : simpl never.
Arguments text_error_message : simpl never.
Arguments audio_error_message : simpl never.
Arguments Memory.append : simpl never.
Arguments Memory.remove : simpl never.
Arguments Memory.change_system_message : simpl never.
Arguments Memory.get : simpl never.

Ltac unfold_m :=
  unfold check, first_url in *;
  unfold mbind, M_bind, mret, M_ret, bind, ret, raise, call,
    mem_append, mem_get, mem_remove, mem_change_system_message, log in *.

Ltac run_cases := repeat (case_match; simplify_eq/=).

Section Dispatch.

Context {Response : Type}.
Variable svc : Services Response.
Variable engine : option pystr.

Lemma startswith_app (s p : pystr) :
  PyStr.startswith s p = true -> s = p ++ drop (length p) s.
Proof.
  revert s. induction p as [|c p IH]; intros s H; simpl in *.
  - done.
  - destruct s as [|c' s]; [done|].
    apply andb_true_iff in H as [Hc Hs].
    apply N.eqb_eq in Hc as ->. simpl. f_equal. by apply IH.
Qed.

Lemma dispatch_help uid rest :
  handle_text_try svc engine uid (py "/指令說明" ++ rest)
  = mret (EndOfTry (Some (TextSendMessage help_text))).
Proof. reflexivity. Qed.

Lemma dispatch_system uid rest :
  handle_text_try svc engine uid (py "/系統訊息" ++ rest)
  = (mem_change_system_message uid (PyStr.strip rest);;
     mret (EndOfTry (Some (TextSendMessage (py "輸入成功"))))).
Proof. reflexivity. Qed.

Lemma dispatch_clear uid rest :
  handle_text_try svc engine uid (py "/清除" ++ rest)
  = (mem_remove uid;;
     mret (EndOfTry (Some (TextSendMessage (py "歷史訊息清除成功"))))).
Proof. reflexivity. Qed.

Lemma dispatch_image uid rest :
  handle_text_try svc engine uid (py "/圖像" ++ rest)
  = image_command svc uid (py "/圖像" ++ rest).
Proof. reflexivity. Qed.

Lemma dispatch_gpt uid rest :
  handle_text_try svc engine uid (py "/GPT" ++ rest)
  = gpt_command svc engine uid (py "/GPT" ++ rest).
Proof. reflexivity. Qed.

End Dispatch.

(** *** The memory of the program keeps its turn bound *)

Section Configured.

Implicit Types (m : Memory.t) (uid : pystr) (u : Memory.UserMemory).

Lemma configured_new sys : Memory.configured (Memory.new sys 2).
Proof. split; [done|]. intros uid u. simpl. by rewrite lookup_empty. Qed.

Lemma configured_max_turns m uid :
  Memory.configured m -> Memory.max_turns (Memory.record m uid) = 2.
Proof.
  intros [Hcount Hrec]. unfold Memory.record.
  destruct (Memory.records m !! uid) as [u|] eqn:E; simpl; eauto.
Qed.

Lemma configured_store m uid u :
  Memory.configured m -> Memory.max_turns u = 2 ->
  Memory.configured (Memory.store m uid u).
Proof.
  intros [Hcount Hrec] Hu. split; [done|].
  intros uid' u'. simpl. rewrite lookup_insert.
  case_decide; [congruence | apply Hrec].
Qed.

Lemma configured_append m uid r c :
  Memory.configured m -> Memory.configured (Memory.append m uid r c).
Proof. intros H. apply configured_store; [done|]. by apply configured_max_turns. Qed.

Lemma configured_remove m uid :
  Memory.configured m -> Memory.configured (Memory.remove m uid).
Proof. intros H. apply configured_store; [done|]. by apply configured_max_turns. Qed.

Lemma configured_change_system_message m uid text :
  Memory.configured m ->
  Memory.configured (Memory.change_system_message m uid text).
Proof. intros H. apply configured_store; [done|]. by apply configured_max_turns. Qed.

Lemma configured_get m uid :
  Memory.configured m -> Memory.configured (snd (Memory.get m uid)).
Proof. intros H. apply configured_store; [done|]. by apply configured_max_turns. Qed.

End Configured.

(** *** The image command *)

Section ImageCommand.

Context {Response : Type}.
Variable svc : Services Response.
Variable engine : option pystr.

(** C10: a successful image generation is answered by an image message
    whose original and preview URL are both the first URL of the response,
    and that URL is the content of the assistant entry the command leaves
    at the end of the user's history. *)
Theorem image_reply_same_url (uid raw rest : pystr) (w : World)
    (r : Result ImageResponse) (d : ImageDatum) (ds : list ImageDatum) :
  Memory.configured (memory w) ->
  PyStr.strip raw = py "/圖像" ++ rest ->
  image_generations svc (PyStr.strip rest) = Returns r ->
  is_successful r = true ->
  data (response r) = d :: ds ->
  exists w',
    handle_text_message svc engine uid raw w
    = (Replied (ImageSendMessage (url d) (url d)), w')
    /\ last (Memory.history_of (memory w') uid)
       = Some (Entry Assistant (url d))
    /\ trace w' = trace w ++ [MemAppend uid User (PyStr.strip rest);
                              ImageGenerations (PyStr.strip rest);
                              MemAppend uid Assistant (url d)].
Proof.
  intros Hconf Htext Hcall Hok Hdata.
  unfold handle_text_message. rewrite Htext, dispatch_image.
  unfold image_command.
  change (drop 3 (py "/圖像" ++ rest)) with rest.
  unfold_m. simpl. rewrite Hcall. simpl. rewrite Hok. simpl.
  rewrite Hdata. simpl.
  eexists. split; [reflexivity|]. simpl. split.
  - rewrite history_of_append. apply window_last.
    rewrite max_turns_append, configured_max_turns by done. lia.
  - by rewrite <- !app_assoc.
Qed.

End ImageCommand.

(** *** Failing commands *)

Section Failures.

Context {Response : Type}.
Variable svc : Services Response.
Variable engine : option pystr.












End Failures.

(** *** The handlers always complete *)

Section Completion.

Context {Response : Type}.
Variable svc : Services Response.
Variable engine : option pystr.

Lemma image_command_binds_msg uid text w w1 flow :
  image_command svc uid text w = (Val flow, w1) ->
  exists msg, flow = EndOfTry (Some msg).
Proof.
  unfold image_command. unfold_m. intros Hrun.
  run_cases; eauto.
Qed.

Lemma gpt_command_binds_msg uid text w w1 flow :
  gpt_command svc engine uid text w = (Val flow, w1) ->
  exists msg, flow = EndOfTry (Some msg).
Proof.
  unfold gpt_command, youtube_summary, website_summary, chat_completion.
  unfold_m. intros Hrun.
  run_cases; eauto.
Qed.

(** [msg] is bound whenever the handler reaches its last line. *)
Lemma handle_text_message_caught uid raw w :
  fst (handle_text_message svc engine uid raw w) <> Uncaught.
Proof.
  unfold handle_text_message.
  destruct (handle_text_try svc engine uid (PyStr.strip raw) w)
    as [[[|[msg|]]|e] w1] eqn:Hrun; simpl; try done.
  exfalso. revert Hrun.
  unfold handle_text_try, commands. cbn [existsb].
  destruct (PyStr.startswith _ (py "/指令說明")); [done|].
  destruct (PyStr.startswith _ (py "/系統訊息")); [done|].
  destruct (PyStr.startswith _ (py "/清除")); [done|].
  destruct (PyStr.startswith _ (py "/圖像")).
  { intros Hrun. by apply image_command_binds_msg in Hrun as [msg ?]. }
  destruct (PyStr.startswith _ (py "/GPT")); [|done].
  intros Hrun. by apply gpt_command_binds_msg in Hrun as [msg ?].
Qed.

End Completion.

(** *** The handlers keep the memory configured *)

Section ConfiguredHandlers.

Context {Response : Type}.
Variable svc : Services Response.
Variable engine : option pystr.

Ltac solve_configured :=
  simpl;
  repeat first
    [ assumption
    | apply configured_append
    | apply configured_remove
    | apply configured_change_system_message
    | apply configured_get ].

Lemma handle_text_try_configured uid text w :
  Memory.configured (memory w) ->
  Memory.configured (memory (snd (handle_text_try svc engine uid text w))).
Proof.
  intros Hconf.
  unfold handle_text_try, image_command, gpt_command, youtube_summary,
    website_summary, chat_completion.
  destruct (existsb _ commands); [|done].
  destruct (PyStr.startswith text (py "/指令說明")); [done|].
  destruct (PyStr.startswith text (py "/系統訊息")); [solve_configured|].
  destruct (PyStr.startswith text (py "/清除")); [solve_configured|].
  destruct (PyStr.startswith text (py "/圖像")).
  { unfold_m. run_cases; solve_configured. }
  destruct (PyStr.startswith text (py "/GPT")); [|done].
  unfold_m. run_cases; solve_configured.
Qed.

Lemma handle_text_message_configured uid raw w :
  Memory.configured (memory w) ->
  Memory.configured (memory (snd (handle_text_message svc engine uid raw w))).
Proof.
  intros Hconf. unfold handle_text_message.
  pose proof (handle_text_try_configured uid (PyStr.strip raw) w Hconf) as Htry.
  destruct (handle_text_try svc engine uid (PyStr.strip raw) w)
    as [[[|[msg|]]|e] w1]; simpl in *; try done.
  by apply configured_remove.
Qed.

Lemma handle_audio_message_configured uid path w :
  Memory.configured (memory w) ->
  Memory.configured (memory (snd (handle_audio_message svc uid path w))).
Proof.
  intros Hconf. unfold handle_audio_message, handle_audio_try.
  unfold_m. run_cases; solve_configured.
Qed.

End ConfiguredHandlers.

(** *** Routing *)

Section Routing.

Context {Response : Type}.
Variable svc : Services Response.
Variable engine : option pystr.

Lemma handle_text_try_route uid text :
  handle_text_try svc engine uid text = route svc engine uid text.
Proof.
  unfold handle_text_try, route, command_table, commands.
  cbn [existsb find fst snd].
  destruct (PyStr.startswith text (py "/指令說明")); [done|].
  destruct (PyStr.startswith text (py "/系統訊息")); [done|].
  destruct (PyStr.startswith text (py "/清除")); [done|].
  destruct (PyStr.startswith text (py "/圖像")); [done|].
  destruct (PyStr.startswith text (py "/GPT")); done.
Qed.

Lemma unmatched_silent uid raw w :
  Forall (fun p => PyStr.startswith (PyStr.strip raw) p = false) commands ->
  handle_text_message svc engine uid raw w = (Silent, w).
Proof.
  intros Hnone. unfold handle_text_message, handle_text_try.
  replace (existsb _ commands) with false; [done|].
  symmetry. apply not_true_is_false. intros Hex.
  apply existsb_exists in Hex as (p & Hin & Hp).
  rewrite Forall_forall in Hnone. apply list_elem_of_In in Hin.
  rewrite (Hnone p Hin) in Hp. done.
Qed.

(** C3: the text handler routes the trimmed input as the command table
    says, first matching prefix first; a text that starts with the clear
    prefix is answered by the clear command alone, whatever follows the
    prefix; and a text that starts with no prefix gets no reply and
    leaves the world as it was, at the first delivery and at every
    repeated one. *)
Theorem routing_first_match (uid raw : pystr) (w : World) :
  handle_text_try svc engine uid (PyStr.strip raw)
  = route svc engine uid (PyStr.strip raw)
  /\ (forall rest, PyStr.strip raw = py "/清除" ++ rest ->
       handle_text_message svc engine uid raw w
       = (Replied (TextSendMessage (py "歷史訊息清除成功")),
          mkWorld (Memory.remove (memory w) uid)
                  (trace w ++ [MemRemove uid])))
  /\ (Forall (fun p => PyStr.startswith (PyStr.strip raw) p = false) commands ->
       forall n,
         redeliver svc engine uid raw n w = w
         /\ handle_text_message svc engine uid raw
              (redeliver svc engine uid raw n w) = (Silent, w)).
Proof.
  split; [apply handle_text_try_route|]. split.
  - intros rest Htext. unfold handle_text_message.
    by rewrite Htext, dispatch_clear.
  - intros Hnone n.
    assert (Hsame : redeliver svc engine uid raw n w = w).
    { induction n as [|n IH]; [done|].
      unfold redeliver in *. simpl. rewrite IH.
      by rewrite unmatched_silent. }
    rewrite Hsame. split; [done|]. by apply unmatched_silent.
Qed.

End Routing.

(** *** The chat command *)

Section ChatCommand.

Context {Response : Type}.
Variable svc : Services Response.
Variable engine : option pystr.

(** C5, amended: a chat command whose text after the prefix is empty once
    trimmed is answered by the guidance message, and the world is left as
    it was: no service is called and the memory is not touched. *)
Theorem chat_without_prompt (uid raw rest : pystr) (w : World) :
  PyStr.strip raw = py "/GPT" ++ rest ->
  PyStr.strip rest = [] ->
  handle_text_message svc engine uid raw w
  = (Replied (TextSendMessage (py "請在 /GPT 指令後提供內容。")), w).
Proof.
  intros Htext Hempty. unfold handle_text_message.
  rewrite Htext, dispatch_gpt. unfold gpt_command.
  change (drop 4 (py "/GPT" ++ rest)) with rest.
  by rewrite Hempty.
Qed.

Lemma text_error_message_unreadable :
  text_error_message (py "無法撈取此網站文字")
  = TextSendMessage (py "無法撈取此網站文字").
Proof. vm_compute. reflexivity. Qed.

(** C7: a chat command whose prompt holds a URL that is not a video, and
    for which the website reader returns no chunk, is answered by the
    text that the site could not be read, and the user's history is empty
    afterwards. *)
Theorem empty_extraction_clears_history (uid raw rest : pystr) (w : World)
    (found video_id : option pystr) :
  PyStr.strip raw = py "/GPT" ++ rest ->
  PyStr.truthy (PyStr.strip rest) = true ->
  get_url_from_text svc (PyStr.strip rest) = Returns found ->
  PyStr.truthy_opt found = true ->
  retrieve_video_id svc (PyStr.strip rest) = Returns video_id ->
  PyStr.truthy_opt video_id = false ->
  get_content_from_url svc found = Returns [] ->
  exists w',
    handle_text_message svc engine uid raw w
    = (Replied (TextSendMessage (py "無法撈取此網站文字")), w')
    /\ Memory.history_of (memory w') uid = []
    /\ trace w' = trace w ++ [MemAppend uid User (PyStr.strip rest);
                              GetUrlFromText (PyStr.strip rest);
                              RetrieveVideoId (PyStr.strip rest);
                              GetContentFromUrl found;
                              MemRemove uid].
Proof.
  intros Htext Hprompt Hurl Hfound Hvid Hnovid Hpage.
  unfold handle_text_message. rewrite Htext, dispatch_gpt.
  unfold gpt_command, website_summary.
  change (drop 4 (py "/GPT" ++ rest)) with rest.
  rewrite Hprompt. unfold_m. simpl.
  rewrite Hurl. simpl. rewrite Hfound, Hvid. simpl.
  rewrite Hnovid, Hpage. simpl.
  rewrite text_error_message_unreadable.
  eexists. split; [reflexivity|]. simpl.
  split; [apply history_of_remove|].
  by rewrite <- !app_assoc.
Qed.

(** C6: after the system-message command, a chat command without URL
    hands the chat completion a sequence whose first entry is the new
    system message, and when the completion succeeds with an assistant
    message the command appended exactly the user entry and then the
    assistant entry to the user's memory. *)
Theorem system_then_chat (uid sys_raw sys_rest chat_raw chat_rest c : pystr)
    (w : World) (found : option pystr) (r : Result Response) :
  PyStr.strip sys_raw = py "/系統訊息" ++ sys_rest ->
  PyStr.strip chat_raw = py "/GPT" ++ chat_rest ->
  PyStr.truthy (PyStr.strip chat_rest) = true ->
  get_url_from_text svc (PyStr.strip chat_rest) = Returns found ->
  PyStr.truthy_opt found = false ->
  let prompt := PyStr.strip chat_rest in
  let w1 := snd (handle_text_message svc engine uid sys_raw w) in
  let messages :=
    Entry System (PyStr.strip sys_rest)
    :: Memory.history_of (Memory.append (memory w1) uid User prompt) uid in
  chat_completions svc messages engine = Returns r ->
  is_successful r = true ->
  get_role_and_content svc (response r) = (Assistant, c) ->
  handle_text_message svc engine uid sys_raw w
  = (Replied (TextSendMessage (py "輸入成功")), w1)
  /\ handle_text_message svc engine uid chat_raw w1
     = (Replied (TextSendMessage c),
        mkWorld
          (Memory.append (Memory.append (memory w1) uid User prompt)
             uid Assistant c)
          (trace w1 ++ [MemAppend uid User prompt;
                        GetUrlFromText prompt;
                        MemGet uid;
                        ChatCompletions messages engine;
                        MemAppend uid Assistant c]))
  /\ head messages = Some (Entry System (PyStr.strip sys_rest)).
Proof.
  intros Hsys Hchat Hprompt Hurl Hnone prompt w1 messages Hcall Hok Hrole.
  assert (Hw1 : handle_text_message svc engine uid sys_raw w
                = (Replied (TextSendMessage (py "輸入成功")),
                   mkWorld
                     (Memory.change_system_message (memory w) uid
                        (PyStr.strip sys_rest))
                     (trace w ++ [MemChangeSystemMessage uid
                                    (PyStr.strip sys_rest)]))).
  { unfold handle_text_message. by rewrite Hsys, dispatch_system. }
  subst messages w1. rewrite Hw1 in *. simpl snd in *.
  split; [done|]. split; [|done].
  unfold handle_text_message. rewrite Hchat, dispatch_gpt.
  unfold gpt_command, chat_completion.
  change (drop 4 (py "/GPT" ++ chat_rest)) with chat_rest.
  fold prompt. fold prompt in Hprompt, Hurl. rewrite Hprompt.
  unfold_m. cbn. cbn in Hcall.
  rewrite Hurl. cbn. rewrite Hnone. cbn.
  rewrite get_append, system_message_change. cbn.
  rewrite Hcall. cbn.
  rewrite Hok. cbn. rewrite Hrole. cbn.
  by rewrite <- !app_assoc.
Qed.

End ChatCommand.

(** *** The audio handler *)

Section Audio.

Context {Response : Type}.
Variable svc : Services Response.

Lemma handle_audio_trace uid path w :
  exists rest,
    trace (snd (handle_audio_message svc uid path w))
    = trace w ++ AudioTranscriptions path (py "whisper-1") :: rest
    /\ forallb (fun ev => negb (is_detection ev)) rest = true.
Proof.
  unfold handle_audio_message, handle_audio_try. unfold_m.
  run_cases; rewrite <- ?app_assoc; simpl; eexists; split; done.
Qed.

(** C8: whatever the transcript, the audio handler first transcribes, and
    nothing it does afterwards is a URL or video detection; when the
    transcription and the completion succeed it appends the transcript as
    user turn, runs one chat completion over the user's memory, appends
    the assistant turn and replies with its content. *)
Theorem audio_direct_chat (uid path : pystr) (w : World) :
  (exists rest,
     trace (snd (handle_audio_message svc uid path w))
     = trace w ++ AudioTranscriptions path (py "whisper-1") :: rest
     /\ forallb (fun ev => negb (is_detection ev)) rest = true)
  /\ (forall (t : Result Transcription) (r : Result Response) (c : pystr),
        audio_transcriptions svc path (py "whisper-1") = Returns t ->
        is_successful t = true ->
        let m1 := Memory.append (memory w) uid User (transcript (response t)) in
        let messages := fst (Memory.get m1 uid) in
        chat_completions svc messages (Some (py "gpt-3.5-turbo")) = Returns r ->
        is_successful r = true ->
        get_role_and_content svc (response r) = (Assistant, c) ->
        handle_audio_message svc uid path w
        = (Replied (TextSendMessage c),
           mkWorld (Memory.append m1 uid Assistant c)
             (trace w ++ [AudioTranscriptions path (py "whisper-1");
                          MemAppend uid User (transcript (response t));
                          MemGet uid;
                          ChatCompletions messages (Some (py "gpt-3.5-turbo"));
                          MemAppend uid Assistant c]))).
Proof.
  split; [apply handle_audio_trace|].
  intros t r c Ht Htok m1 messages Hcall Hok Hrole.
  subst messages m1. rewrite get_append in Hcall |- *. cbn in Hcall |- *.
  unfold handle_audio_message, handle_audio_try. unfold_m. cbn.
  rewrite Ht. cbn. rewrite Htok. cbn.
  rewrite get_append. cbn. rewrite Hcall. cbn.
  rewrite Hok. cbn. rewrite Hrole. cbn.
  by rewrite <- !app_assoc.
Qed.

End Audio.

(** *** Error messages *)

Section ErrorMessages.

Context {Response : Type}.
Variable svc : Services Response.

Lemma text_error_message_auth e :
  PyStr.startswith e (py "Incorrect API key provided") = true ->
  text_error_message e = TextSendMessage (py "OpenAI API Key 有誤，請檢查配置。").
Proof. intros H. unfold text_error_message. by rewrite H. Qed.

Lemma overloaded_not_auth e :
  PyStr.startswith e
    (py "That model is currently overloaded with other requests.") = true ->
  PyStr.startswith e (py "Incorrect API key provided") = false.
Proof.
  intros H. apply startswith_app in H.
  destruct e as [|c e]; [done|].
  vm_compute in H. injection H as -> _. reflexivity.
Qed.

Lemma text_error_message_overloaded e :
  PyStr.startswith e
    (py "That model is currently overloaded with other requests.") = true ->
  text_error_message e = TextSendMessage (py "已超過負荷，請稍後再試").
Proof.
  intros H. unfold text_error_message.
  by rewrite (overloaded_not_auth e H), H.
Qed.

Lemma text_error_message_other e :
  PyStr.startswith e (py "Incorrect API key provided") = false ->
  PyStr.startswith e
    (py "That model is currently overloaded with other requests.") = false ->
  text_error_message e = TextSendMessage e.
Proof. intros H1 H2. unfold text_error_message. by rewrite H1, H2. Qed.

Lemma audio_error_message_overloaded e :
  PyStr.startswith e
    (py "That model is currently overloaded with other requests.") = true ->
  audio_error_message e = TextSendMessage e.
Proof.
  intros H. unfold audio_error_message.
  by rewrite (overloaded_not_auth e H).
Qed.

Lemma failed_audio_clears_history uid path e w w1 :
  handle_audio_try svc uid path w = (Exc e, w1) ->
  exists w2,
    handle_audio_message svc uid path w = (Replied (audio_error_message e), w2)
    /\ Memory.history_of (memory w2) uid = [].
Proof.
  intros Hraise. unfold handle_audio_message. rewrite Hraise.
  eexists. split; [reflexivity|]. apply history_of_remove.
Qed.

End ErrorMessages.

(** C4: an audio event whose transcription fails with the upstream
    overload message is answered with that raw message, where the text
    handler answers the same failure with its overload message. *)
Theorem audio_overloaded_not_classified :
  let overloaded :=
    py "That model is currently overloaded with other requests." in
  let svc :=
    fake (failed {| data := [] |} overloaded) chat_ok
      (failed {| transcript := [] |} overloaded) None [] in
  let w := initial_world (py "You are a helpful assistant.") in
  fst (handle_audio_message svc (py "U1") (py "voice.m4a") w)
  = Replied (TextSendMessage overloaded)
  /\ fst (handle_text_message svc None (py "U1") (py "/圖像 a red cat") w)
     = Replied (TextSendMessage (py "已超過負荷，請稍後再試"))
  /\ TextSendMessage overloaded
     <> TextSendMessage (py "已超過負荷，請稍後再試").
Proof. vm_compute. split; [reflexivity|]. split; [reflexivity|discriminate]. Qed.

(** *** Model identifiers *)

Section Engines.

Context {Response : Type}.
Variable svc : Services Response.
Variable engine : option pystr.

Lemma handle_text_try_engine uid text w :
  exists evs,
    trace (snd (handle_text_try svc engine uid text w)) = trace w ++ evs
    /\ Forall (fun ev => forall e, engine_of ev = Some e -> e = engine) evs.
Proof.
  unfold handle_text_try, image_command, gpt_command, youtube_summary,
    website_summary, chat_completion.
  destruct (existsb _ commands); [|exists []; by rewrite app_nil_r].
  destruct (PyStr.startswith text (py "/指令說明"));
    [exists []; by rewrite app_nil_r|].
  destruct (PyStr.startswith text (py "/系統訊息"));
    [eexists; split; [reflexivity|]; repeat constructor; done|].
  destruct (PyStr.startswith text (py "/清除"));
    [eexists; split; [reflexivity|]; repeat constructor; done|].
  destruct (PyStr.startswith text (py "/圖像")).
  { unfold_m. run_cases; rewrite <- ?app_assoc; simpl.
    all: eexists; split; [reflexivity|].
    all: repeat constructor; simpl; congruence. }
  destruct (PyStr.startswith text (py "/GPT"));
    [|exists []; by rewrite app_nil_r].
  unfold_m. run_cases; rewrite <- ?app_assoc; simpl.
  all: try (exists []; by rewrite app_nil_r).
  all: eexists; split; [reflexivity|].
  all: repeat constructor; simpl; congruence.
Qed.

End Engines.

(** C9: with the engine configured as [gpt-4], the chat command calls the
    chat completion with [gpt-4], and the audio handler calls it with
    [gpt-3.5-turbo]. *)
Theorem audio_ignores_configured_engine :
  let svc := fake image_ok chat_ok audio_ok None [] in
  let sys := py "You are a helpful assistant." in
  let w := initial_world sys in
  let OPENAI_MODEL_ENGINE := Some (py "gpt-4") in
  trace (snd (handle_text_message svc OPENAI_MODEL_ENGINE (py "U1")
                (py "/GPT hello") w))
  = [MemAppend (py "U1") User (py "hello");
     GetUrlFromText (py "hello");
     MemGet (py "U1");
     ChatCompletions [Entry System sys; Entry User (py "hello")]
       OPENAI_MODEL_ENGINE;
     MemAppend (py "U1") Assistant (py "Hello!")]
  /\ trace (snd (handle_audio_message svc (py "U1") (py "voice.m4a") w))
     = [AudioTranscriptions (py "voice.m4a") (py "whisper-1");
        MemAppend (py "U1") User (py "/清除 https://example.com");
        MemGet (py "U1");
        ChatCompletions
          [Entry System sys; Entry User (py "/清除 https://example.com")]
          (Some (py "gpt-3.5-turbo"));
        MemAppend (py "U1") Assistant (py "Hello!")]
  /\ Some (py "gpt-3.5-turbo") <> OPENAI_MODEL_ENGINE.
Proof. vm_compute. split; [reflexivity|]. split; [reflexivity|discriminate]. Qed.

(** C5, as stated: the image command and the system-message command with
    an empty payload do not recover locally; the first appends to the
    memory and calls the image model, the second changes the memory. *)
Lemma empty_payload_not_guarded :
  let svc :=
    fake (failed {| data := [] |} (py "prompt is required")) chat_ok audio_ok
      None [] in
  let w := initial_world (py "You are a helpful assistant.") in
  (PyStr.strip (drop 3 (PyStr.strip (py "/圖像 "))) = []
   /\ ~ recovers_locally svc None (py "U1") (py "/圖像 ") w
   /\ trace (snd (handle_text_message svc None (py "U1") (py "/圖像 ") w))
      = [MemAppend (py "U1") User []; ImageGenerations [];
         MemRemove (py "U1")])
  /\ (PyStr.strip (drop 5 (PyStr.strip (py "/系統訊息"))) = []
      /\ ~ recovers_locally svc None (py "U1") (py "/系統訊息") w
      /\ handle_text_message svc None (py "U1") (py "/系統訊息") w
         = (Replied (TextSendMessage (py "輸入成功")),
            mkWorld (Memory.change_system_message (memory w) (py "U1") [])
              [MemChangeSystemMessage (py "U1") []])).
Proof.
  intros svc w. split; split; [vm_compute; reflexivity| |vm_compute; reflexivity|].
  - split; [|vm_compute; reflexivity].
    intros [guidance H].
    apply (f_equal (fun p => length (trace (snd p)))) in H.
    vm_compute in H. discriminate.
  - split; [|vm_compute; reflexivity].
    intros [guidance H].
    apply (f_equal (fun p => length (trace (snd p)))) in H.
    vm_compute in H. discriminate.
Qed.

(** *** The theorems at concrete inputs *)


Lemma history_window_bounded_witness :
  let calls :=
    [ (py "U1", User, py "q1"); (py "U1", Assistant, py "a1");
      (py "U2", User, py "x");
      (py "U1", User, py "q2"); (py "U1", Assistant, py "a2");
      (py "U1", User, py "q3") ] in
  let m := Memory.appends (Memory.new (py "sys") 2) calls in
  let es := Memory.entries_for (py "U1") calls in
  length (Memory.history_of m (py "U1")) <= 2 * 2
  /\ (exists j, 2 * j <= length es
        /\ Memory.history_of m (py "U1") = drop (2 * j) es)
  /\ (length es <= 2 * 2 -> Memory.history_of m (py "U1") = es)
  /\ fst (Memory.get m (py "U1"))
     = Entry System (py "sys") :: Memory.history_of m (py "U1").
Proof.
  intros calls m es.
  apply (history_window_bounded (py "sys") 2). lia.
Defined.

Lemma routing_first_match_witness :
  let svc := fake image_ok chat_ok audio_ok None [] in
  let w := initial_world (py "You are a helpful assistant.") in
  handle_text_message svc None (py "U1") (py "/清除 extra text") w
  = (Replied (TextSendMessage (py "歷史訊息清除成功")),
     mkWorld (Memory.remove (memory w) (py "U1"))
       (trace w ++ [MemRemove (py "U1")]))
  /\ handle_text_message svc None (py "U1") (py "hello /GPT")
       (redeliver svc None (py "U1") (py "hello /GPT") 2 w)
     = (Silent, w).
Proof.
  intros svc w. split.
  - apply (proj1 (proj2 (routing_first_match svc None (py "U1")
                           (py "/清除 extra text") w))
             (py " extra text")).
    vm_compute. reflexivity.
  - apply (proj2 (proj2 (routing_first_match svc None (py "U1")
                           (py "hello /GPT") w))).
    vm_compute. repeat constructor.
Defined.

Lemma chat_without_prompt_witness :
  let svc := fake image_ok chat_ok audio_ok None [] in
  let w := initial_world (py "You are a helpful assistant.") in
  handle_text_message svc None (py "U1") (py "  /GPT   ") w
  = (Replied (TextSendMessage (py "請在 /GPT 指令後提供內容。")), w).
Proof.
  intros svc w.
  apply (chat_without_prompt svc None (py "U1") (py "  /GPT   ") []);
    vm_compute; reflexivity.
Defined.

Lemma empty_extraction_clears_history_witness :
  let article := py "https://example.com/article" in
  let svc := fake image_ok chat_ok audio_ok (Some article) [] in
  let w := initial_world (py "You are a helpful assistant.") in
  exists w',
    handle_text_message svc None (py "U1")
      (py "/GPT https://example.com/article") w
    = (Replied (TextSendMessage (py "無法撈取此網站文字")), w')
    /\ Memory.history_of (memory w') (py "U1") = []
    /\ trace w' = trace w ++ [MemAppend (py "U1") User (PyStr.strip (py " https://example.com/article"));
                              GetUrlFromText (PyStr.strip (py " https://example.com/article"));
                              RetrieveVideoId (PyStr.strip (py " https://example.com/article"));
                              GetContentFromUrl (Some article);
                              MemRemove (py "U1")].
Proof.
  intros article svc w.
  apply (empty_extraction_clears_history svc None (py "U1")
           (py "/GPT https://example.com/article")
           (py " https://example.com/article") w (Some article) None);
    vm_compute; reflexivity.
Defined.

Lemma system_then_chat_witness :
  let svc := fake image_ok chat_ok audio_ok None [] in
  let w := initial_world (py "You are a helpful assistant.") in
  let w1 :=
    snd (handle_text_message svc None (py "U1") (py "/系統訊息 你是一個翻譯員") w) in
  let messages := [Entry System (py "你是一個翻譯員"); Entry User (py "你好")] in
  trace (snd (handle_text_message svc None (py "U1") (py "/GPT 你好") w1))
  = trace w1 ++ [MemAppend (py "U1") User (py "你好");
                 GetUrlFromText (py "你好");
                 MemGet (py "U1");
                 ChatCompletions messages None;
                 MemAppend (py "U1") Assistant (py "Hello!")].
Proof.
  intros svc w w1 messages.
  destruct (system_then_chat svc None (py "U1")
              (py "/系統訊息 你是一個翻譯員") (py " 你是一個翻譯員")
              (py "/GPT 你好") (py " 你好") (py "Hello!") w None chat_ok)
    as (_ & Hchat & _); [vm_compute; reflexivity..|].
  fold w1 in Hchat. rewrite Hchat. vm_compute. reflexivity.
Defined.

Lemma audio_direct_chat_witness :
  let svc := fake image_ok chat_ok audio_ok None [] in
  let sys := py "You are a helpful assistant." in
  let w := initial_world sys in
  fst (handle_audio_message svc (py "U1") (py "voice.m4a") w)
  = Replied (TextSendMessage (py "Hello!"))
  /\ Memory.history_of
       (memory (snd (handle_audio_message svc (py "U1") (py "voice.m4a") w)))
       (py "U1")
     = [Entry User (py "/清除 https://example.com");
        Entry Assistant (py "Hello!")].
Proof.
  intros svc sys w.
  rewrite (proj2 (audio_direct_chat svc (py "U1") (py "voice.m4a") w)
             audio_ok chat_ok (py "Hello!"));
    [|vm_compute; reflexivity..].
  split; vm_compute; reflexivity.
Defined.

Lemma image_reply_same_url_witness :
  let svc := fake image_ok chat_ok audio_ok None [] in
  let w := initial_world (py "You are a helpful assistant.") in
  let d := {| url := py "https://img.example/cat.png" |} in
  exists w',
    handle_text_message svc None (py "U1") (py "/圖像 a red cat") w
    = (Replied (ImageSendMessage (url d) (url d)), w')
    /\ last (Memory.history_of (memory w') (py "U1"))
       = Some (Entry Assistant (url d))
    /\ trace w' = trace w ++ [MemAppend (py "U1") User (PyStr.strip (py " a red cat"));
                              ImageGenerations (PyStr.strip (py " a red cat"));
                              MemAppend (py "U1") Assistant (url d)].
Proof.
  intros svc w d.
  apply (image_reply_same_url svc None (py "U1") (py "/圖像 a red cat")
           (py " a red cat") w image_ok d []);
    [apply configured_new|vm_compute; reflexivity..].
Defined.

(** ** Further properties of the handlers *)

(** *** Trimming *)

Section Trimming.

Implicit Types s : pystr.

Lemma lstrip_ltrimmed s : ltrimmed (PyStr.lstrip s).
Proof.
  induction s as [|c s IH]; simpl; [done|].
  destruct (PyStr.isspace c) eqn:Hc; [done|]. simpl. done.
Qed.

Lemma lstrip_id s : ltrimmed s -> PyStr.lstrip s = s.
Proof. destruct s as [|c s]; simpl; [done|]. by intros ->. Qed.

Lemma lstrip_suffix s : exists sp, s = sp ++ PyStr.lstrip s.
Proof.
  induction s as [|c s [sp IH]]; simpl; [by exists []|].
  destruct (PyStr.isspace c).
  - exists (c :: sp). simpl. by f_equal.
  - by exists [].
Qed.

Lemma rstrip_prefix s : exists sp, s = PyStr.rstrip s ++ sp.
Proof.
  unfold PyStr.rstrip. destruct (lstrip_suffix (rev s)) as [sp Hsp].
  exists (rev sp). rewrite <- rev_app_distr, <- Hsp. by rewrite rev_involutive.
Qed.

Lemma rstrip_ltrimmed s : ltrimmed s -> ltrimmed (PyStr.rstrip s).
Proof.
  intros Hs. destruct (rstrip_prefix s) as [sp Hsp].
  destruct (PyStr.rstrip s) as [|c r]; [done|].
  rewrite Hsp in Hs. done.
Qed.

Lemma rstrip_id s : ltrimmed (rev s) -> PyStr.rstrip s = s.
Proof.
  intros Hs. unfold PyStr.rstrip. rewrite lstrip_id by done.
  apply rev_involutive.
Qed.

Lemma strip_idempotent s : PyStr.strip (PyStr.strip s) = PyStr.strip s.
Proof.
  unfold PyStr.strip.
  rewrite (lstrip_id (PyStr.rstrip (PyStr.lstrip s))).
  - apply rstrip_id. unfold PyStr.rstrip. rewrite rev_involutive.
    apply lstrip_ltrimmed.
  - apply rstrip_ltrimmed, lstrip_ltrimmed.
Qed.

End Trimming.

(** *** What a handler adds to the trace *)

Lemma new_events_nil w : new_events w w = [].
Proof. unfold new_events. apply drop_all. Qed.

Lemma new_events_app w m evs :
  new_events w (mkWorld m (trace w ++ evs)) = evs.
Proof. unfold new_events. simpl. apply drop_app_length. Qed.

Ltac norm_events :=
  simpl; rewrite <- ?app_assoc; simpl;
  rewrite ?new_events_app; try rewrite new_events_nil;
  try match goal with
      | |- context [new_events ?w {| memory := ?m; trace := trace ?w |}] =>
        change (mkWorld m (trace w)) with (mkWorld m (trace w ++ []));
        rewrite new_events_app
      end.

Ltac text_branches :=
  unfold handle_text_message, handle_text_try, image_command, gpt_command,
    youtube_summary, website_summary, chat_completion, commands;
  cbn [existsb];
  destruct (PyStr.startswith _ (py "/指令說明"));
  [|destruct (PyStr.startswith _ (py "/系統訊息"));
    [|destruct (PyStr.startswith _ (py "/清除"));
      [|destruct (PyStr.startswith _ (py "/圖像"));
        [|destruct (PyStr.startswith _ (py "/GPT"))]]]];
  unfold_m.

Ltac text_cases := text_branches; run_cases; norm_events.

Ltac each_event :=
  repeat lazymatch goal with
         | |- Forall _ [] => apply List.Forall_nil
         | |- Forall _ (_ :: _) => apply List.Forall_cons
         end.

Ltac audio_cases :=
  unfold handle_audio_message, handle_audio_try;
  unfold_m; run_cases; norm_events.

Section Isolation.

Context {Response : Type}.
Variable svc : Services Response.
Variable engine : option pystr.

(** X1: every memory operation of the text handler and of the audio
    handler is about the user of the event; no other user's record is
    read or written. *)
Theorem handlers_touch_only_the_sender (uid raw path : pystr) (w : World) :
  Forall (fun ev => forall u, event_user ev = Some u -> u = uid)
    (new_events w (snd (handle_text_message svc engine uid raw w)))
  /\ Forall (fun ev => forall u, event_user ev = Some u -> u = uid)
       (new_events w (snd (handle_audio_message svc uid path w))).
Proof.
  split.
  - text_cases; each_event; simpl; congruence.
  - audio_cases; each_event; simpl; congruence.
Qed.

End Isolation.

(** *** Replies *)

Section Replies.

Context {Response : Type}.
Variable svc : Services Response.
Variable engine : option pystr.

(** X2: a text event is answered exactly when its trimmed text starts
    with one of the command prefixes: then the handler replies with one
    message (its last line never finds [msg] unbound), otherwise it
    returns without reply and leaves the world as it was. *)
Theorem text_replied_iff_command (uid raw : pystr) (w : World) :
  if existsb (PyStr.startswith (PyStr.strip raw)) commands
  then exists msg,
         fst (handle_text_message svc engine uid raw w) = Replied msg
  else handle_text_message svc engine uid raw w = (Silent, w).
Proof.
  text_cases; eauto.
Qed.


(** X4: white space around the text of an event is ignored: the handler
    does to the raw text what it does to the trimmed one. *)
Theorem surrounding_space_ignored (uid raw : pystr) (w : World) :
  handle_text_message svc engine uid raw w
  = handle_text_message svc engine uid (PyStr.strip raw) w.
Proof.
  unfold handle_text_message. by rewrite strip_idempotent.
Qed.

End Replies.

(** *** Command prefixes *)

(** X5: no text starts with two different command prefixes, so the order
    in which the handler tests them decides nothing. *)
Theorem command_prefixes_exclusive (text p q : pystr) :
  In p commands -> In q commands ->
  PyStr.startswith text p = true -> PyStr.startswith text q = true ->
  p = q.
Proof.
  unfold commands. simpl In. intros Hp Hq Hsp Hsq.
  apply startswith_app in Hsp. rewrite Hsp in Hsq. clear Hsp.
  intuition subst; try reflexivity; exfalso; vm_compute in Hsq; discriminate.
Qed.

Section Calls.

Context {Response : Type}.
Variable svc : Services Response.
Variable engine : option pystr.

(** X6: the text handler calls a service only for the image command and
    for the chat command; help, system message and clear never leave the
    process. *)
Theorem services_only_for_image_and_chat (uid raw : pystr) (w : World) :
  Forall (fun ev =>
            is_service ev = true ->
            PyStr.startswith (PyStr.strip raw) (py "/圖像") = true
            \/ PyStr.startswith (PyStr.strip raw) (py "/GPT") = true)
    (new_events w (snd (handle_text_message svc engine uid raw w))).
Proof.
  text_cases; each_event; simpl; intros; auto; discriminate.
Qed.

(** X7: every prompt the text handler gives a service is trimmed, and the
    prompt of the chat command is never empty when a service sees it. *)
Theorem prompts_trimmed_and_chat_prompt_nonempty (uid raw : pystr)
    (w : World) :
  Forall (fun ev =>
            (forall p, prompt_of ev = Some p -> PyStr.strip p = p)
            /\ (forall p, chat_prompt_of ev = Some p -> p <> []))
    (new_events w (snd (handle_text_message svc engine uid raw w))).
Proof.
  text_cases; each_event; simpl.
  all: split; intros p Hp; simplify_eq.
  all: try apply strip_idempotent.
  all: intros Hnil;
    match goal with
    | H : negb (PyStr.truthy _) = false |- _ => rewrite Hnil in H; discriminate
    end.
Qed.

(** X8: a text event leads to at most five service calls and an audio
    event to at most two. *)
Theorem service_calls_bounded (uid raw path : pystr) (w : World) :
  length (filter (fun ev => is_service ev = true)
            (new_events w (snd (handle_text_message svc engine uid raw w))))
  <= 5
  /\ length (filter (fun ev => is_service ev = true)
               (new_events w (snd (handle_audio_message svc uid path w))))
     <= 2.
Proof.
  split.
  - text_cases; vm_compute; lia.
  - audio_cases; vm_compute; lia.
Qed.

(** X9: every model identifier the text handler passes to a chat
    completion or to a summary is the configured [OPENAI_MODEL_ENGINE]. *)
Theorem text_handler_uses_configured_engine (uid raw : pystr) (w : World) :
  Forall (fun ev => forall e, engine_of ev = Some e -> e = engine)
    (new_events w (snd (handle_text_message svc engine uid raw w))).
Proof.
  text_cases; each_event; simpl; congruence.
Qed.

(** X10: the audio handler transcribes with [whisper-1] and completes
    with [gpt-3.5-turbo], whatever the environment configures. *)
Theorem audio_handler_models_fixed (uid path : pystr) (w : World) :
  Forall (fun ev =>
            (forall m, transcription_model ev = Some m -> m = py "whisper-1")
            /\ (forall e, engine_of ev = Some e
                          -> e = Some (py "gpt-3.5-turbo")))
    (new_events w (snd (handle_audio_message svc uid path w))).
Proof.
  audio_cases; each_event; simpl; split; congruence.
Qed.

End Calls.

(** *** The branches of the chat command *)

Section ChatBranches.

Context {Response : Type}.
Variable svc : Services Response.
Variable engine : option pystr.

(** X11: when the URL detection finds a URL in the prompt, the handler
    neither reads the memory nor calls the chat completion: the prompt is
    answered by a summary or by an error. *)
Theorem url_prompt_skips_chat_completion (uid raw : pystr) (w : World)
    (found : option pystr) :
  get_url_from_text svc (PyStr.strip (drop 4 (PyStr.strip raw)))
  = Returns found ->
  PyStr.truthy_opt found = true ->
  Forall (fun ev => is_chat_completion ev = false)
    (new_events w (snd (handle_text_message svc engine uid raw w))).
Proof.
  intros Hurl Hfound.
  text_branches; rewrite ?Hurl; simpl; rewrite ?Hfound.
  all: run_cases; norm_events; each_event; reflexivity.
Qed.

(** X12: when the URL detection finds nothing in the prompt, the handler
    looks for no video, fetches no page and asks for no summary. *)
Theorem plain_prompt_skips_summaries (uid raw : pystr) (w : World)
    (found : option pystr) :
  get_url_from_text svc (PyStr.strip (drop 4 (PyStr.strip raw)))
  = Returns found ->
  PyStr.truthy_opt found = false ->
  Forall (fun ev => is_summary ev = false)
    (new_events w (snd (handle_text_message svc engine uid raw w))).
Proof.
  intros Hurl Hfound.
  text_branches; rewrite ?Hurl; simpl; rewrite ?Hfound.
  all: run_cases; norm_events; each_event; reflexivity.
Qed.

(** X13: a chat prompt with a video URL whose transcript and summary
    succeed is answered by the summary's content: the video id is looked
    up twice, the transcript chunks are summarised with the configured
    engine, the website reader is not asked, and the summary is appended
    after the user turn under the role it came with. *)
Theorem video_prompt_summarized (uid raw rest content : pystr) (w : World)
    (found video_id : option pystr) (captions : Result (list pystr))
    (summary : Result Response) (r : Role) :
  PyStr.strip raw = py "/GPT" ++ rest ->
  PyStr.truthy (PyStr.strip rest) = true ->
  get_url_from_text svc (PyStr.strip rest) = Returns found ->
  PyStr.truthy_opt found = true ->
  retrieve_video_id svc (PyStr.strip rest) = Returns video_id ->
  PyStr.truthy_opt video_id = true ->
  get_transcript_chunks svc video_id = Returns captions ->
  is_successful captions = true ->
  youtube_summarize svc engine (response captions) = Returns summary ->
  is_successful summary = true ->
  get_role_and_content svc (response summary) = (r, content) ->
  handle_text_message svc engine uid raw w
  = (Replied (TextSendMessage content),
     mkWorld
       (Memory.append (Memory.append (memory w) uid User (PyStr.strip rest))
          uid r content)
       (trace w ++ [MemAppend uid User (PyStr.strip rest);
                    GetUrlFromText (PyStr.strip rest);
                    RetrieveVideoId (PyStr.strip rest);
                    RetrieveVideoId (PyStr.strip rest);
                    GetTranscriptChunks video_id;
                    YoutubeSummarize engine (response captions);
                    MemAppend uid r content])).
Proof.
  intros Htext Hprompt Hurl Hfound Hvid Hvideo Hcap Hcapok Hsum Hsumok Hrole.
  unfold handle_text_message. rewrite Htext, dispatch_gpt.
  unfold gpt_command, youtube_summary.
  change (drop 4 (py "/GPT" ++ rest)) with rest.
  rewrite Hprompt. unfold_m. cbn.
  rewrite Hurl. cbn. rewrite Hfound, Hvid. cbn. rewrite Hvideo. cbn.
  rewrite Hcap. cbn. rewrite Hcapok. cbn. rewrite Hsum. cbn.
  rewrite Hsumok. cbn. rewrite Hrole. cbn.
  by rewrite <- !app_assoc.
Qed.

(** X14: a chat prompt with a URL that is no video, whose page has at
    least one chunk and whose summary succeeds, is answered by the
    summary's content: the page is fetched once and summarised with the
    configured engine, no transcript is asked for, and the summary is
    appended after the user turn under the role it came with. *)
Theorem website_prompt_summarized (uid raw rest content : pystr) (w : World)
    (found video_id : option pystr) (chunk : pystr) (chunks : list pystr)
    (summary : Result Response) (r : Role) :
  PyStr.strip raw = py "/GPT" ++ rest ->
  PyStr.truthy (PyStr.strip rest) = true ->
  get_url_from_text svc (PyStr.strip rest) = Returns found ->
  PyStr.truthy_opt found = true ->
  retrieve_video_id svc (PyStr.strip rest) = Returns video_id ->
  PyStr.truthy_opt video_id = false ->
  get_content_from_url svc found = Returns (chunk :: chunks) ->
  website_summarize svc engine (chunk :: chunks) = Returns summary ->
  is_successful summary = true ->
  get_role_and_content svc (response summary) = (r, content) ->
  handle_text_message svc engine uid raw w
  = (Replied (TextSendMessage content),
     mkWorld
       (Memory.append (Memory.append (memory w) uid User (PyStr.strip rest))
          uid r content)
       (trace w ++ [MemAppend uid User (PyStr.strip rest);
                    GetUrlFromText (PyStr.strip rest);
                    RetrieveVideoId (PyStr.strip rest);
                    GetContentFromUrl found;
                    WebsiteSummarize engine (chunk :: chunks);
                    MemAppend uid r content])).
Proof.
  intros Htext Hprompt Hurl Hfound Hvid Hvideo Hpage Hsum Hsumok Hrole.
  unfold handle_text_message. rewrite Htext, dispatch_gpt.
  unfold gpt_command, website_summary.
  change (drop 4 (py "/GPT" ++ rest)) with rest.
  rewrite Hprompt. unfold_m. cbn.
  rewrite Hurl. cbn. rewrite Hfound, Hvid. cbn. rewrite Hvideo. cbn.
  rewrite Hpage. cbn. rewrite Hsum. cbn. rewrite Hsumok. cbn. rewrite Hrole. cbn.
  by rewrite <- !app_assoc.
Qed.

End ChatBranches.

(** *** Failures *)

Lemma text_error_message_index :
  text_error_message (py "list index out of range")
  = TextSendMessage (py "list index out of range").
Proof. vm_compute. reflexivity. Qed.

Section MoreFailures.

Context {Response : Type}.
Variable svc : Services Response.
Variable engine : option pystr.

(** X15: an image generation that reports success but holds no datum
    fails at the index: the user is told [list index out of range], no
    assistant turn is appended and the history is removed. *)
Theorem image_success_without_data (uid raw rest : pystr) (w : World)
    (r : Result ImageResponse) :
  PyStr.strip raw = py "/圖像" ++ rest ->
  image_generations svc (PyStr.strip rest) = Returns r ->
  is_successful r = true ->
  data (response r) = [] ->
  handle_text_message svc engine uid raw w
  = (Replied (TextSendMessage (py "list index out of range")),
     mkWorld
       (Memory.remove (Memory.append (memory w) uid User (PyStr.strip rest))
          uid)
       (trace w ++ [MemAppend uid User (PyStr.strip rest);
                    ImageGenerations (PyStr.strip rest);
                    MemRemove uid])).
Proof.
  intros Htext Hcall Hok Hdata.
  unfold handle_text_message. rewrite Htext, dispatch_image.
  unfold image_command.
  change (drop 3 (py "/圖像" ++ rest)) with rest.
  unfold_m. cbn. rewrite Hcall. cbn. rewrite Hok. cbn. rewrite Hdata. cbn.
  rewrite text_error_message_index.
  by rewrite <- !app_assoc.
Qed.

(** X16: when the [try] block of the audio handler raises, the handler
    removes the user's history and replies with the message of the error;
    the failure was the transcription, and nothing had been appended, or
    the chat completion, after the transcript was appended as user turn. *)
Theorem failed_audio_removes_history (uid path e : pystr) (w w1 : World) :
  handle_audio_try svc uid path w = (Exc e, w1) ->
  handle_audio_message svc uid path w
  = (Replied (audio_error_message e),
     mkWorld (Memory.remove (memory w1) uid) (trace w1 ++ [MemRemove uid]))
  /\ (new_events w w1 = [AudioTranscriptions path (py "whisper-1")]
      /\ memory w1 = memory w
      \/ exists t messages,
           new_events w w1
           = [AudioTranscriptions path (py "whisper-1");
              MemAppend uid User t;
              MemGet uid;
              ChatCompletions messages (Some (py "gpt-3.5-turbo"))]).
Proof.
  intros Hraise. split.
  - unfold handle_audio_message. by rewrite Hraise.
  - revert Hraise. unfold handle_audio_try. unfold_m. intros Hraise.
    run_cases; norm_events; eauto.
Qed.

(** X17: what the text handler replies when its [try] block raises: the
    key message for an error that starts with the API-key prefix, the
    overload message for one that starts with the overload prefix, and
    the error's own text otherwise. *)
Theorem text_errors_classified (uid raw e : pystr) (w w1 : World) :
  handle_text_try svc engine uid (PyStr.strip raw) w = (Exc e, w1) ->
  let reply := fst (handle_text_message svc engine uid raw w) in
  (PyStr.startswith e (py "Incorrect API key provided") = true ->
   reply = Replied (TextSendMessage (py "OpenAI API Key 有誤，請檢查配置。")))
  /\ (PyStr.startswith e
        (py "That model is currently overloaded with other requests.") = true ->
      reply = Replied (TextSendMessage (py "已超過負荷，請稍後再試")))
  /\ (PyStr.startswith e (py "Incorrect API key provided") = false ->
      PyStr.startswith e
        (py "That model is currently overloaded with other requests.") = false ->
      reply = Replied (TextSendMessage e)).
Proof.
  intros Hraise reply.
  assert (Hreply : reply = Replied (text_error_message e)).
  { subst reply. unfold handle_text_message. by rewrite Hraise. }
  rewrite Hreply. clear Hreply reply Hraise.
  split; [|split].
  - intros H. exact (f_equal Replied (text_error_message_auth e H)).
  - intros H. exact (f_equal Replied (text_error_message_overloaded e H)).
  - intros H1 H2. exact (f_equal Replied (text_error_message_other e H1 H2)).
Qed.

(** X18: what the audio handler replies when its [try] block raises: the
    key message for an error that starts with the API-key prefix, and the
    error's own text for every other error. *)
Theorem audio_errors_classified (uid path e : pystr) (w w1 : World) :
  handle_audio_try svc uid path w = (Exc e, w1) ->
  let reply := fst (handle_audio_message svc uid path w) in
  (PyStr.startswith e (py "Incorrect API key provided") = true ->
   reply = Replied (TextSendMessage (py "OpenAI API Key 有誤，請檢查配置。")))
  /\ (PyStr.startswith e (py "Incorrect API key provided") = false ->
      reply = Replied (TextSendMessage e)).
Proof.
  intros Hraise reply.
  assert (Hreply : reply = Replied (audio_error_message e)).
  { subst reply. unfold handle_audio_message. by rewrite Hraise. }
  rewrite Hreply. clear Hreply reply Hraise.
  unfold audio_error_message.
  split; intros H; rewrite H; reflexivity.
Qed.

End MoreFailures.

(** *** The further properties at concrete inputs *)

Lemma command_prefixes_exclusive_witness :
  py "/清除" = py "/清除".
Proof.
  apply (command_prefixes_exclusive (py "/清除 now") (py "/清除") (py "/清除")).
  - right; right; left; reflexivity.
  - right; right; left; reflexivity.
  - vm_compute; reflexivity.
  - vm_compute; reflexivity.
Defined.

Lemma url_prompt_skips_chat_completion_witness :
  let article := py "https://example.com/article" in
  let svc :=
    fake_reader (Some article) None (failed [] (py "no transcript"))
      [py "Cats sleep a lot."] summary_ok in
  let w := initial_world (py "You are a helpful assistant.") in
  Forall (fun ev => is_chat_completion ev = false)
    (new_events w
       (snd (handle_text_message svc None (py "U1")
               (py "/GPT https://example.com/article") w))).
Proof.
  intros article svc w.
  apply (url_prompt_skips_chat_completion svc None (py "U1")
           (py "/GPT https://example.com/article") w (Some article));
    vm_compute; reflexivity.
Defined.

Lemma plain_prompt_skips_summaries_witness :
  let svc := fake image_ok chat_ok audio_ok None [] in
  let w := initial_world (py "You are a helpful assistant.") in
  Forall (fun ev => is_summary ev = false)
    (new_events w
       (snd (handle_text_message svc None (py "U1") (py "/GPT hello") w))).
Proof.
  intros svc w.
  apply (plain_prompt_skips_summaries svc None (py "U1") (py "/GPT hello") w
           None);
    vm_compute; reflexivity.
Defined.

Lemma video_prompt_summarized_witness :
  let video := py "https://youtu.be/abc" in
  let captions := mkResult true [py "Cats sleep."; py "A lot."] [] in
  let svc :=
    fake_reader (Some video) (Some (py "abc")) captions [] summary_ok in
  let w := initial_world (py "You are a helpful assistant.") in
  let rest := py " https://youtu.be/abc" in
  handle_text_message svc (Some (py "gpt-4")) (py "U1")
    (py "/GPT https://youtu.be/abc") w
  = (Replied (TextSendMessage (py "In short: cats.")),
     mkWorld
       (Memory.append
          (Memory.append (memory w) (py "U1") User (PyStr.strip rest))
          (py "U1") Assistant (py "In short: cats."))
       (trace w ++ [MemAppend (py "U1") User (PyStr.strip rest);
                    GetUrlFromText (PyStr.strip rest);
                    RetrieveVideoId (PyStr.strip rest);
                    RetrieveVideoId (PyStr.strip rest);
                    GetTranscriptChunks (Some (py "abc"));
                    YoutubeSummarize (Some (py "gpt-4")) (response captions);
                    MemAppend (py "U1") Assistant (py "In short: cats.")])).
Proof.
  intros video captions svc w rest.
  apply (video_prompt_summarized svc (Some (py "gpt-4")) (py "U1")
           (py "/GPT https://youtu.be/abc") rest (py "In short: cats.") w
           (Some video) (Some (py "abc")) captions summary_ok Assistant);
    vm_compute; reflexivity.
Defined.

Lemma website_prompt_summarized_witness :
  let article := py "https://example.com/article" in
  let svc :=
    fake_reader (Some article) None (failed [] (py "no transcript"))
      [py "Cats sleep a lot."] summary_ok in
  let w := initial_world (py "You are a helpful assistant.") in
  let rest := py " https://example.com/article" in
  handle_text_message svc (Some (py "gpt-4")) (py "U1")
    (py "/GPT https://example.com/article") w
  = (Replied (TextSendMessage (py "In short: cats.")),
     mkWorld
       (Memory.append
          (Memory.append (memory w) (py "U1") User (PyStr.strip rest))
          (py "U1") Assistant (py "In short: cats."))
       (trace w ++ [MemAppend (py "U1") User (PyStr.strip rest);
                    GetUrlFromText (PyStr.strip rest);
                    RetrieveVideoId (PyStr.strip rest);
                    GetContentFromUrl (Some article);
                    WebsiteSummarize (Some (py "gpt-4"))
                      (py "Cats sleep a lot." :: []);
                    MemAppend (py "U1") Assistant (py "In short: cats.")])).
Proof.
  intros article svc w rest.
  apply (website_prompt_summarized svc (Some (py "gpt-4")) (py "U1")
           (py "/GPT https://example.com/article") rest
           (py "In short: cats.") w (Some article) None
           (py "Cats sleep a lot.") [] summary_ok Assistant);
    vm_compute; reflexivity.
Defined.

Lemma image_success_without_data_witness :
  let svc := fake image_without_data chat_ok audio_ok None [] in
  let w := initial_world (py "You are a helpful assistant.") in
  let rest := py " a red cat" in
  handle_text_message svc None (py "U1") (py "/圖像 a red cat") w
  = (Replied (TextSendMessage (py "list index out of range")),
     mkWorld
       (Memory.remove
          (Memory.append (memory w) (py "U1") User (PyStr.strip rest))
          (py "U1"))
       (trace w ++ [MemAppend (py "U1") User (PyStr.strip rest);
                    ImageGenerations (PyStr.strip rest);
                    MemRemove (py "U1")])).
Proof.
  intros svc w rest.
  apply (image_success_without_data svc None (py "U1") (py "/圖像 a red cat")
           rest w image_without_data);
    vm_compute; reflexivity.
Defined.

Lemma failed_audio_removes_history_witness :
  let overloaded :=
    py "That model is currently overloaded with other requests." in
  let svc :=
    fake image_ok (failed (Assistant, []) overloaded) audio_ok None [] in
  let w := initial_world (py "You are a helpful assistant.") in
  let w1 := snd (handle_audio_try svc (py "U1") (py "voice.m4a") w) in
  handle_audio_message svc (py "U1") (py "voice.m4a") w
  = (Replied (audio_error_message overloaded),
     mkWorld (Memory.remove (memory w1) (py "U1"))
       (trace w1 ++ [MemRemove (py "U1")])).
Proof.
  intros overloaded svc w w1.
  apply (failed_audio_removes_history svc (py "U1") (py "voice.m4a")
           overloaded w w1).
  vm_compute; reflexivity.
Defined.

Lemma text_errors_classified_witness :
  let overloaded :=
    py "That model is currently overloaded with other requests." in
  let svc :=
    fake (failed {| data := [] |} overloaded) chat_ok audio_ok None [] in
  let w := initial_world (py "You are a helpful assistant.") in
  fst (handle_text_message svc None (py "U1") (py "/圖像 a red cat") w)
  = Replied (TextSendMessage (py "已超過負荷，請稍後再試")).
Proof.
  intros overloaded svc w.
  apply (proj1 (proj2
           (text_errors_classified svc None (py "U1") (py "/圖像 a red cat")
              overloaded w
              (snd (handle_text_try svc None (py "U1")
                      (PyStr.strip (py "/圖像 a red cat")) w))
              ltac:(vm_compute; reflexivity))));
    vm_compute; reflexivity.
Defined.

Lemma audio_errors_classified_witness :
  let overloaded :=
    py "That model is currently overloaded with other requests." in
  let svc :=
    fake image_ok chat_ok (failed {| transcript := [] |} overloaded) None [] in
  let w := initial_world (py "You are a helpful assistant.") in
  fst (handle_audio_message svc (py "U1") (py "voice.m4a") w)
  = Replied (TextSendMessage overloaded).
Proof.
  intros overloaded svc w.
  apply (proj2
           (audio_errors_classified svc (py "U1") (py "voice.m4a")
              overloaded w
              (snd (handle_audio_try svc (py "U1") (py "voice.m4a") w))
              ltac:(vm_compute; reflexivity)));
    vm_compute; reflexivity.
Defined.
